(** * Product Studio: prompt construction and request orchestration

    A shallow embedding of [src/App.tsx]: the two static description tables,
    the prompt-building effect, the style-analysis effect, the
    [handleGenerate] and [handleFileChange] handlers and what the component
    renders of the button and the alert, together with the properties the
    specification states about them and further ones read off the code.

    React state is a record with one field per [useState] cell; a state
    setter is a write to one field.  The two [async] functions are finite
    programs over three kinds of steps (a setter, [console.error], an awaited
    collaborator call), with JavaScript's [try]/[catch]/[finally] as
    combinators over such programs. *)

From Stdlib Require Import String Ascii List Bool Arith Lia.
Import ListNotations.
Local Open Scope string_scope.

(** ** Data model *)

(** [ImageFile]: an image held in memory, with the three fields
    [handleFileChange] fills in. *)
Record ImageFile : Type := mkImageFile {
  base64 : string;
  mimeType : string;
  name : string
}.

(** [LightingStyle]: the keys of [LIGHTING_DESCRIPTIONS]. *)
Inductive LightingStyle : Type :=
| NaturalLight   (* 'Natural Light' *)
| StudioLight    (* 'Studio Light' *)
| GoldenHour     (* 'Golden Hour' *)
| BlueHour       (* 'Blue Hour' *)
| Cinematic      (* 'Cinematic' *)
| Dramatic.      (* 'Dramatic' *)

(** [CameraPerspective]: the keys of [CAMERA_PERSPECTIVE_DESCRIPTIONS]. *)
Inductive CameraPerspective : Type :=
| FrontView      (* 'Front View' *)
| TopView        (* 'Top View' *)
| SideView       (* 'Side View' *)
| Angle45        (* '45 degree Angle' *)
| CloseUp        (* 'Close-up' *)
| MacroShot.     (* 'Macro Shot' *)

Definition all_LightingStyle : list LightingStyle :=
  [NaturalLight; StudioLight; GoldenHour; BlueHour; Cinematic; Dramatic].

Definition all_CameraPerspective : list CameraPerspective :=
  [FrontView; TopView; SideView; Angle45; CloseUp; MacroShot].

Record CustomizationOptions : Type := mkOptions {
  lightingStyle : LightingStyle;
  cameraPerspective : CameraPerspective
}.

(** ** The static tables *)

Definition LIGHTING_DESCRIPTIONS (l : LightingStyle) : string :=
  match l with
  | NaturalLight =>
    "Bathed in soft, diffused natural light, creating a clean, airy, and authentic feel. Emphasize realistic highlights and gentle shadows."
  | StudioLight =>
    "Lit with a professional multi-point studio setup. Use a key light, fill light, and rim light to sculpt the product's form, create depth, and produce crisp, clean highlights. The background should be seamless and evenly lit."
  | GoldenHour =>
    "Illuminated by the warm, soft, and directional light of the golden hour (just after sunrise or before sunset). The scene should have long, soft shadows and a warm, inviting color palette."
  | BlueHour =>
    "Captured during the blue hour (the period of twilight in the morning or evening). The light should be cool, soft, and diffused, creating a serene and moody atmosphere with a predominantly blue color cast."
  | Cinematic =>
    "Use dramatic, moody lighting with high contrast, similar to a film still. Emphasize texture and shape with creative use of light and shadow. Consider using color gels for a stylized effect."
  | Dramatic =>
    "Characterized by high contrast and strong, hard light (chiaroscuro). Use deep shadows to create a sense of mystery, power, and intensity, focusing attention on specific parts of the product."
  end.

Definition CAMERA_PERSPECTIVE_DESCRIPTIONS (c : CameraPerspective) : string :=
  match c with
  | FrontView =>
    "A direct, head-on shot from the front, perfectly centered. This perspective should clearly display the product's primary face and branding in a straightforward manner."
  | TopView =>
    "A bird's-eye view, shot directly from above (a flat lay or knolling perspective). This is ideal for showcasing the product's shape, layout, or components on a flat surface."
  | SideView =>
    "A profile shot taken directly from the side. This perspective is used to highlight the product's silhouette, thickness, and details not visible from the front."
  | Angle45 =>
    "An isometric or three-quarter view, shot from a 45-degree angle from the front and side. This popular perspective provides a sense of depth and dimension, showing multiple sides of the product at once."
  | CloseUp =>
    "A tight shot focusing on a specific, interesting detail of the product. This should highlight its material, texture, craftsmanship, or a key feature with a shallow depth of field."
  | MacroShot =>
    "An extreme close-up view that reveals intricate details not visible to the naked eye. This perspective should magnify textures, patterns, and minuscule components, emphasizing the product's quality and precision."
  end.

(** ** React state *)

(** One field per [useState] cell of [App]. *)
Record State : Type := mkState {
  productImage : option ImageFile;
  styleImage : option ImageFile;
  generatedImage : option ImageFile;
  styleDescription : option string;
  isAnalyzingStyle : bool;
  options : CustomizationOptions;
  prompt : string;
  isLoading : bool;
  error : option string
}.

(** The initial render.  The initial selections are
    [LIGHTING_STYLES[0].value] and [CAMERA_PERSPECTIVES[0].value] of
    [./constants]; they are arguments here. *)
Definition initialState (l0 : LightingStyle) (c0 : CameraPerspective) : State :=
  mkState None None None None false (mkOptions l0 c0) "" false None.

(** A call of one of the nine state setters. *)
Inductive SetState : Type :=
| SetProductImage (v : option ImageFile)
| SetStyleImage (v : option ImageFile)
| SetGeneratedImage (v : option ImageFile)
| SetStyleDescription (v : option string)
| SetIsAnalyzingStyle (v : bool)
| SetOptions (v : CustomizationOptions)
| SetPrompt (v : string)
| SetIsLoading (v : bool)
| SetError (v : option string).

(** The state after a setter call: the one cell is replaced, the others are
    kept. *)
Definition write (u : SetState) (st : State) : State :=
  match u with
  | SetProductImage v =>
    mkState v (styleImage st) (generatedImage st) (styleDescription st) (isAnalyzingStyle st) (options st) (prompt st) (isLoading st) (error st)
  | SetStyleImage v =>
    mkState (productImage st) v (generatedImage st) (styleDescription st) (isAnalyzingStyle st) (options st) (prompt st) (isLoading st) (error st)
  | SetGeneratedImage v =>
    mkState (productImage st) (styleImage st) v (styleDescription st) (isAnalyzingStyle st) (options st) (prompt st) (isLoading st) (error st)
  | SetStyleDescription v =>
    mkState (productImage st) (styleImage st) (generatedImage st) v (isAnalyzingStyle st) (options st) (prompt st) (isLoading st) (error st)
  | SetIsAnalyzingStyle v =>
    mkState (productImage st) (styleImage st) (generatedImage st) (styleDescription st) v (options st) (prompt st) (isLoading st) (error st)
  | SetOptions v =>
    mkState (productImage st) (styleImage st) (generatedImage st) (styleDescription st) (isAnalyzingStyle st) v (prompt st) (isLoading st) (error st)
  | SetPrompt v =>
    mkState (productImage st) (styleImage st) (generatedImage st) (styleDescription st) (isAnalyzingStyle st) (options st) v (isLoading st) (error st)
  | SetIsLoading v =>
    mkState (productImage st) (styleImage st) (generatedImage st) (styleDescription st) (isAnalyzingStyle st) (options st) (prompt st) v (error st)
  | SetError v =>
    mkState (productImage st) (styleImage st) (generatedImage st) (styleDescription st) (isAnalyzingStyle st) (options st) (prompt st) (isLoading st) v
  end.

(** ** JavaScript values in boolean position *)

(** An object reference is truthy, [null] is falsy. *)
Definition truthy {A : Type} (v : option A) : bool :=
  match v with Some _ => true | None => false end.

(** A string is falsy exactly when it is empty. *)
Definition truthy_string (s : string) : bool :=
  match s with EmptyString => false | String _ _ => true end.

(** [string | null]: [null] and the empty string are both falsy. *)
Definition truthy_nullable_string (v : option string) : bool :=
  match v with Some s => truthy_string s | None => false end.

(** ** Collaborators, exceptions and asynchronous programs *)

(** What a [catch (err)] clause can receive: an [Error] instance, which has a
    [message], or any other thrown value. *)
Inductive Thrown : Type :=
| ErrorInstance (message : string)
| OtherValue.

(** The two collaborators imported from [./services/geminiService], indexed
    by what their promise resolves to.  They are opaque: a program only
    names the call, and the answer comes from outside. *)
Inductive Call : Type -> Type :=
| analyzeStyleImage (image : ImageFile) : Call string
| generateImage (product : ImageFile) (promptText : string)
                (style : option ImageFile) : Call ImageFile.

(** A collaborator call as it appears in a trace. *)
Inductive Invocation : Type :=
| Invoked {R : Type} (c : Call R).

(** The body of an [async] function (or of an effect) that returns an [A]:
    it returns, throws, calls a state setter, writes to the console, or
    awaits a collaborator and goes on with the promise's outcome. *)
Inductive Async (A : Type) : Type :=
| Ret (a : A)
| Throw (e : Thrown)
| Update (u : SetState) (k : Async A)
| ConsoleError (e : Thrown) (k : Async A)
| Await {R : Type} (c : Call R) (k : Thrown + R -> Async A).

Arguments Ret {A} a.
Arguments Throw {A} e.
Arguments Update {A} u k.
Arguments ConsoleError {A} e k.
Arguments Await {A R} c k.

(** Sequencing; an exception skips what follows. *)
Fixpoint bind {A B : Type} (m : Async A) (f : A -> Async B) : Async B :=
  match m with
  | Ret a => f a
  | Throw e => Throw e
  | Update u k => Update u (bind k f)
  | ConsoleError e k => ConsoleError e (bind k f)
  | Await c k => Await c (fun r => bind (k r) f)
  end.

Declare Scope async_scope.
Delimit Scope async_scope with async.
Notation "x <- m ;; k" := (bind m (fun x => k))
  (at level 61, m at next level, right associativity) : async_scope.
Notation "m ;; k" := (bind m (fun _ => k))
  (at level 61, right associativity) : async_scope.
Local Open Scope async_scope.

(** [await c]: the value the promise resolves to, or its rejection thrown. *)
Definition await {R : Type} (c : Call R) : Async R :=
  Await c (fun r => match r with inl e => Throw e | inr v => Ret v end).

(** [try { body } catch (err) { handler err }]. *)
Fixpoint tryCatch {A : Type} (body : Async A) (handler : Thrown -> Async A)
  : Async A :=
  match body with
  | Ret a => Ret a
  | Throw e => handler e
  | Update u k => Update u (tryCatch k handler)
  | ConsoleError e k => ConsoleError e (tryCatch k handler)
  | Await c k => Await c (fun r => tryCatch (k r) handler)
  end.

(** [try { body } finally { fin }]: [fin] runs on both exits and the exit of
    [body] is kept. *)
Fixpoint tryFinally {A : Type} (body : Async A) (fin : Async unit) : Async A :=
  match body with
  | Ret a => fin ;; Ret a
  | Throw e => fin ;; Throw e
  | Update u k => Update u (tryFinally k fin)
  | ConsoleError e k => ConsoleError e (tryFinally k fin)
  | Await c k => Await c (fun r => tryFinally (k r) fin)
  end.

(** The setters and [console.error] as one-step programs. *)
Definition setProductImage v : Async unit := Update (SetProductImage v) (Ret tt).
Definition setStyleImage v : Async unit := Update (SetStyleImage v) (Ret tt).
Definition setGeneratedImage v : Async unit := Update (SetGeneratedImage v) (Ret tt).
Definition setStyleDescription v : Async unit := Update (SetStyleDescription v) (Ret tt).
Definition setIsAnalyzingStyle v : Async unit := Update (SetIsAnalyzingStyle v) (Ret tt).
Definition setOptions v : Async unit := Update (SetOptions v) (Ret tt).
Definition setPrompt v : Async unit := Update (SetPrompt v) (Ret tt).
Definition setIsLoading v : Async unit := Update (SetIsLoading v) (Ret tt).
Definition setError v : Async unit := Update (SetError v) (Ret tt).
Definition console_error (e : Thrown) : Async unit := ConsoleError e (Ret tt).

(** ** Running asynchronous programs *)

(** What an execution can be observed to do: the React state, the
    collaborator calls made so far (oldest first) and what went to
    [console.error]. *)
Record World : Type := mkWorld {
  ui : State;
  calls : list Invocation;
  console : list Thrown
}.

Definition render (st : State) : World := mkWorld st [] [].

Definition apply_setter (u : SetState) (w : World) : World :=
  mkWorld (write u (ui w)) (calls w) (console w).

Definition log_error (e : Thrown) (w : World) : World :=
  mkWorld (ui w) (calls w) (console w ++ [e]).

Definition record_call {R : Type} (c : Call R) (w : World) : World :=
  mkWorld (ui w) (calls w ++ [Invoked c]) (console w).

(** Where the synchronous part of a program stops: it has finished (normally
    or by an uncaught exception), or it is suspended at an [await] with the
    rest of the function as continuation. *)
Inductive Suspended (A : Type) : Type :=
| Settled (r : Thrown + A)
| Pending {R : Type} (c : Call R) (k : Thrown + R -> Async A).

Arguments Settled {A} r.
Arguments Pending {A R} c k.

(** Runs a program up to, and including the issue of, its first awaited
    call. *)
Fixpoint advance {A : Type} (m : Async A) (w : World) : World * Suspended A :=
  match m with
  | Ret a => (w, Settled (inr a))
  | Throw e => (w, Settled (inl e))
  | Update u k => advance k (apply_setter u w)
  | ConsoleError e k => advance k (log_error e w)
  | Await c k => (record_call c w, Pending c k)
  end.

(** The collaborators' answers: each call resolves ([inr]) or rejects
    ([inl]). *)
Definition Collaborators : Type := forall R : Type, Call R -> Thrown + R.

(** Runs a program to completion against given collaborators. *)
Fixpoint run {A : Type} (srv : Collaborators) (m : Async A) (w : World)
  : World * (Thrown + A) :=
  match m with
  | Ret a => (w, inr a)
  | Throw e => (w, inl e)
  | Update u k => run srv k (apply_setter u w)
  | ConsoleError e k => run srv k (log_error e w)
  | Await c k => run srv (k (srv _ c)) (record_call c w)
  end.

(** ** The prompt builder *)

Definition nl : string := String (ascii_of_nat 10) EmptyString.
Definition dquote : string := String (ascii_of_nat 34) EmptyString.

(** The template literal assigned to [newPrompt], with its two
    substitutions. *)
Definition promptTemplate (lightingDesc perspectiveDesc : string) : string :=
  "Generate a high-resolution, professional product photograph of the subject in the provided image." ++ nl
  ++ nl
  ++ "Key requirements:" ++ nl
  ++ "- **Lighting**: " ++ lightingDesc ++ nl
  ++ "- **Camera Perspective**: " ++ perspectiveDesc ++ nl
  ++ "- **Background**: The background should be clean, non-distracting, and complementary to the product. A subtle, high-end studio setting is preferred, unless the lighting or style suggests otherwise." ++ nl
  ++ "- **Overall Mood**: The image should feel premium, clean, and aspirational. Focus on photorealism and fine detail.".

(** The three template literals appended under [if (styleImage)]. *)
Definition pendingClause : string :=
  nl ++ nl ++ "- **Style Reference**: A style reference image is being analyzed. Please wait for the analysis to complete for specific style instructions.".

Definition describedClause (description : string) : string :=
  nl ++ nl ++ "- **Style Reference**: Strictly adhere to the aesthetic of the provided style reference image, which is described as: "
  ++ dquote ++ description ++ dquote
  ++ ". The goal is to make the product look as if it belongs in the same visual world, matching the mood, color palette, and textures.".

Definition fallbackClause : string :=
  nl ++ nl ++ "- **Style Reference**: Strictly adhere to the aesthetic, color palette, texture, and overall mood of the provided style reference image. The goal is to make the product look as if it belongs in the same visual world as the style reference.".

(** A [string | null] value substituted into a template literal. *)
Definition interpolate (v : option string) : string :=
  match v with Some s => s | None => "null" end.

(** The body of the second effect, closed over the render's state. *)
Definition generateNewPrompt (st : State) : Async unit :=
  if negb (truthy (productImage st)) then
    setPrompt ""
  else
    let lightingDesc := LIGHTING_DESCRIPTIONS (lightingStyle (options st)) in
    let perspectiveDesc :=
      CAMERA_PERSPECTIVE_DESCRIPTIONS (cameraPerspective (options st)) in
    let newPrompt := promptTemplate lightingDesc perspectiveDesc in
    let newPrompt :=
      if truthy (styleImage st) then
        if isAnalyzingStyle st then
          newPrompt ++ pendingClause
        else if truthy_nullable_string (styleDescription st) then
          newPrompt ++ describedClause (interpolate (styleDescription st))
        else
          newPrompt ++ fallbackClause
      else newPrompt in
    setPrompt newPrompt.

(** The prompt the effect leaves in the state of the render it ran in. *)
Definition derivedPrompt (st : State) : string :=
  prompt (ui (fst (advance (generateNewPrompt st) (render st)))).

(** ** The style-analysis effect *)

(** The text of the effect's [catch] clause for a value that is not an
    [Error]. *)
Definition analysisFallbackMessage : string :=
  "Could not analyze the style image.".

Definition getStyleDescription (styleImage : ImageFile) : Async unit :=
  setIsAnalyzingStyle true ;;
  setError None ;;
  tryFinally
    (tryCatch
       (description <- await (analyzeStyleImage styleImage) ;;
        setStyleDescription (Some description))
       (fun err =>
          console_error err ;;
          setError (Some match err with
                         | ErrorInstance message => message
                         | OtherValue => analysisFallbackMessage
                         end) ;;
          setStyleDescription None))
    (setIsAnalyzingStyle false).

(** The body of the first effect, whose dependency list is [[styleImage]]. *)
Definition styleAnalysisEffect (st : State) : Async unit :=
  match styleImage st with
  | Some image => getStyleDescription image
  | None => setStyleDescription None
  end.

(** ** The generation handler *)

Definition validationMessage : string :=
  "Please upload a product image and ensure the prompt is not empty.".

(** The text of the handler's [catch] clause for a value that is not an
    [Error]. *)
Definition generationFallbackMessage : string :=
  "An unknown error occurred during image generation.".

(** [handleGenerate], closed over [productImage], [prompt] and [styleImage]
    of the render.  The guard [!productImage || !prompt] is the [None] branch
    together with the test on [prompt]. *)
Definition handleGenerate (st : State) : Async unit :=
  match productImage st with
  | None => setError (Some validationMessage)
  | Some product =>
    if negb (truthy_string (prompt st)) then
      setError (Some validationMessage)
    else
      setIsLoading true ;;
      setError None ;;
      setGeneratedImage None ;;
      tryFinally
        (tryCatch
           (result <- await (generateImage product (prompt st) (styleImage st)) ;;
            setGeneratedImage (Some result))
           (fun err =>
              console_error err ;;
              setError (Some match err with
                             | ErrorInstance message => message
                             | OtherValue => generationFallbackMessage
                             end)))
        (setIsLoading false)
  end.

(** ** User events *)

(** A click on the button: the handler of the current render runs against
    the current state. *)
Definition clickGenerate (srv : Collaborators) (w : World)
  : World * (Thrown + unit) :=
  run srv (handleGenerate (ui w)) w.

(** The style image reference changes to [v]: the setter, then, after the
    render it causes, the effect keyed on [[styleImage]]. *)
Definition changeStyleImage (srv : Collaborators) (v : option ImageFile)
  (w : World) : World * (Thrown + unit) :=
  let w1 := fst (run srv (setStyleImage v) w) in
  run srv (styleAnalysisEffect (ui w1)) w1.

(** ** Substrings *)

(** [needle] occurs in [hay]. *)
Definition Contains (hay needle : string) : Prop :=
  exists pre post, hay = pre ++ needle ++ post.

Fixpoint includes (hay needle : string) : bool :=
  String.prefix needle hay
  || match hay with
     | EmptyString => false
     | String _ rest => includes rest needle
     end.

(** The synchronous part of a change of the style image: the setter and the
    effect up to its [await]. *)
Definition startStyleImageChange (v : option ImageFile) (w : World)
  : World * Suspended unit :=
  let w1 := apply_setter (SetStyleImage v) w in
  advance (styleAnalysisEffect (ui w1)) w1.

(** The message a [catch] clause shows: the error's own text, or the clause's
    fixed text for a thrown value that is not an [Error]. *)
Definition shownMessage (fallback : string) (err : Thrown) : string :=
  match err with
  | ErrorInstance message => message
  | OtherValue => fallback
  end.

(** The template of a render with its two table lookups substituted: what
    [newPrompt] holds before the style branch. *)
Definition basePrompt (st : State) : string :=
  promptTemplate
    (LIGHTING_DESCRIPTIONS (lightingStyle (options st)))
    (CAMERA_PERSPECTIVE_DESCRIPTIONS (cameraPerspective (options st))).

(** [n] clicks on the button, one after the other. *)
Definition repeatClicks (srv : Collaborators) (n : nat) (w : World) : World :=
  Nat.iter n (fun w' => fst (clickGenerate srv w')) w.

(** ** File selection *)

(** What [handleFileChange] reads of the selected DOM [File]. *)
Record File : Type := mkFile {
  file_type : string;
  file_name : string
}.

(** The object literal [handleFileChange] passes to the setter.  Its [base64]
    is [base64String.split(',')[1]], which is [undefined] (here [None]) when
    the array has no second element. *)
Record UploadedImage : Type := mkUploaded {
  uploaded_base64 : option string;
  uploaded_mimeType : string;
  uploaded_name : string
}.

(** [s.split(sep)] for a separator of one character: the pieces between the
    occurrences of [sep], in order; never the empty array. *)
Fixpoint split (sep : ascii) (s : string) : list string :=
  match s with
  | EmptyString => [EmptyString]
  | String c rest =>
    if Ascii.eqb c sep then EmptyString :: split sep rest
    else match split sep rest with
         | piece :: pieces => String c piece :: pieces
         | [] => [String c EmptyString]
         end
  end.

Definition comma : ascii := ascii_of_nat 44.

(** [c] occurs in [s]. *)
Fixpoint has_char (c : ascii) (s : string) : bool :=
  match s with
  | EmptyString => false
  | String x rest => Ascii.eqb x c || has_char c rest
  end.

(** The [reader.onloadend] callback for [file].  [reader.result] is [null]
    ([None]) when the read failed; [split] on it then throws and the setter
    is not reached.  The result is the argument of the setter call, if the
    call is made. *)
Definition onloadend (file : File) (result : option string)
  : option UploadedImage :=
  match result with
  | None => None
  | Some base64String =>
    Some (mkUploaded (nth_error (split comma base64String) 1)
                     (file_type file) (file_name file))
  end.

(** [handleFileChange(setter)(event)].  [files] is [event.target.files]
    ([null] or a list), [readAsDataURL] is what the [FileReader] produces
    for a file.  The result is the argument of the one call of [setter], or
    [None] when [setter] is not called. *)
Definition handleFileChange (files : option (list File))
  (readAsDataURL : File -> option string) : option UploadedImage :=
  let file := match files with
              | Some l => nth_error l 0
              | None => None
              end in
  match file with
  | Some file => onloadend file (readAsDataURL file)
  | None => None
  end.

(** An uploaded object as the [ImageFile] its type announces: it is one when
    its [base64] is a string. *)
Definition asImageFile (up : UploadedImage) : option ImageFile :=
  match uploaded_base64 up with
  | Some b => Some (mkImageFile b (uploaded_mimeType up) (uploaded_name up))
  | None => None
  end.

(** ** What the component renders *)

(** The [disabled] attribute of the button. *)
Definition generateDisabled (st : State) : bool :=
  isLoading st || negb (truthy (productImage st)) || isAnalyzingStyle st.

(** The text on the button. *)
Definition buttonLabel (st : State) : string :=
  if isAnalyzingStyle st then "Analyzing Style..."
  else if isLoading st then "Generating..."
  else "Generate Image".

(** The text of the alert under the prompt editor, if one is rendered: the
    alert is guarded by [error &&]. *)
Definition errorAlert (st : State) : option string :=
  if truthy_nullable_string (error st) then error st else None.

(** ** Interleavings *)

(** The prompt effect runs in the render of [w]. *)
Definition runPromptEffect (w : World) : World :=
  fst (advance (generateNewPrompt (ui w)) w).

(** The promise a suspended program waits for settles with the answer of
    [srv]: the continuation runs, on the state of that moment, up to its next
    [await]. *)
Definition resume {A : Type} (srv : Collaborators) (s : Suspended A)
  (w : World) : World * Suspended A :=
  match s with
  | Settled r => (w, Settled r)
  | Pending c k => advance (k (srv _ c)) w
  end.

(** Two strings differ at a position both have. *)
Fixpoint diverge (a b : string) : bool :=
  match a, b with
  | String x a', String y b' =>
    if Ascii.eqb x y then diverge a' b' else true
  | _, _ => false
  end.

(** ** Sample data *)

Definition sampleProduct : ImageFile :=
  mkImageFile "iVBORw0KGgo=" "image/png" "mug.png".

Definition sampleStyle : ImageFile :=
  mkImageFile "/9j/4AAQSkZJRg==" "image/jpeg" "moodboard.jpg".

(** The text expected for lighting 'Golden Hour' and perspective 'Close-up'
    without a style image, written out in full. *)
Definition goldenHourCloseUpPrompt : string :=
  "Generate a high-resolution, professional product photograph of the subject in the provided image.

Key requirements:
- **Lighting**: Illuminated by the warm, soft, and directional light of the golden hour (just after sunrise or before sunset). The scene should have long, soft shadows and a warm, inviting color palette.
- **Camera Perspective**: A tight shot focusing on a specific, interesting detail of the product. This should highlight its material, texture, craftsmanship, or a key feature with a shallow depth of field.
- **Background**: The background should be clean, non-distracting, and complementary to the product. A subtle, high-end studio setting is preferred, unless the lighting or style suggests otherwise.
- **Overall Mood**: The image should feel premium, clean, and aspirational. Focus on photorealism and fine detail.".

(** * Properties *)

(** ** Strings *)

Section Strings.

Lemma append_assoc (a b c : string) : (a ++ b) ++ c = a ++ (b ++ c).
Proof. induction a as [|x a IH]; simpl; [reflexivity | now rewrite IH]. Qed.

Lemma append_empty_r (a : string) : a ++ "" = a.
Proof. induction a as [|x a IH]; simpl; [reflexivity | now rewrite IH]. Qed.

Lemma prefix_true_iff (p s : string) :
  String.prefix p s = true <-> exists post, s = p ++ post.
Proof.
  revert s; induction p as [|x p IH]; intros s.
  - split; [intros _; now exists s | intros _; now destruct s].
  - destruct s as [|y s]; simpl.
    + split; [discriminate | intros [post H]; discriminate].
    + destruct (ascii_dec x y) as [->|Hxy].
      * split.
        -- intros H. apply IH in H. destruct H as [post ->]. now exists post.
        -- intros [post H]. injection H as H. apply IH. now exists post.
      * split; [discriminate | intros [post H]; injection H; congruence].
Qed.

Lemma includes_true_iff (hay needle : string) :
  includes hay needle = true <-> Contains hay needle.
Proof.
  induction hay as [|x hay IH]; cbn [includes].
  - rewrite orb_false_r, prefix_true_iff. split.
    + intros [post H]. now exists "", post.
    + intros [[|y pre] [post H]]; [now exists post | discriminate].
  - rewrite orb_true_iff, prefix_true_iff, IH. split.
    + intros [[post H] | [pre [post H]]].
      * now exists "", post.
      * exists (String x pre), post. simpl. now rewrite H.
    + intros [[|y pre] [post H]].
      * left. now exists post.
      * right. simpl in H. injection H as _ H. now exists pre, post.
Qed.

Lemma includes_false_not_Contains (hay needle : string) :
  includes hay needle = false -> ~ Contains hay needle.
Proof.
  intros H C. apply includes_true_iff in C. congruence.
Qed.

Lemma Contains_trans (a b c : string) :
  Contains a b -> Contains b c -> Contains a c.
Proof.
  intros [p1 [q1 H1]] [p2 [q2 H2]]. subst a b.
  exists (p1 ++ p2), (q2 ++ q1).
  now rewrite !append_assoc.
Qed.

Lemma Contains_append_l (a b n : string) : Contains a n -> Contains (a ++ b) n.
Proof.
  intros [p [q H]]. subst a. exists p, (q ++ b). now rewrite !append_assoc.
Qed.

Lemma Contains_append_r (a b n : string) : Contains b n -> Contains (a ++ b) n.
Proof.
  intros [p [q H]]. subst b. exists (a ++ p), q. now rewrite !append_assoc.
Qed.

End Strings.

(** Occurrence of one closed string in another, settled by running
    [includes]. *)
Ltac occurs := apply includes_true_iff; vm_compute; reflexivity.
Ltac occurs_not := apply includes_false_not_Contains; vm_compute; reflexivity.

(** ** Execution *)

Section Execution.

Variable srv : Collaborators.

(** Running to completion is running the synchronous part and then, if the
    program is suspended, resuming it with the collaborator's answer. *)
Lemma run_advance {A : Type} (m : Async A) (w : World) :
  run srv m w =
  match advance m w with
  | (w', Settled r) => (w', r)
  | (w', Pending c k) => run srv (k (srv _ c)) w'
  end.
Proof.
  revert w; induction m as [a|e|u k IH|e k IH|R c k IH]; intros w; simpl;
    try reflexivity; apply IH.
Qed.

End Execution.

(** ** The prompt builder *)

Section PromptBuilder.

Lemma derivedPrompt_no_product (st : State) :
  productImage st = None -> derivedPrompt st = "".
Proof.
  intros H. unfold derivedPrompt, generateNewPrompt. now rewrite H.
Qed.

Lemma derivedPrompt_base (st : State) (p : ImageFile) :
  productImage st = Some p ->
  exists clause, derivedPrompt st = basePrompt st ++ clause.
Proof.
  intros H. unfold derivedPrompt, generateNewPrompt, basePrompt.
  rewrite H. simpl.
  destruct (truthy (styleImage st)).
  - destruct (isAnalyzingStyle st);
      [|destruct (truthy_nullable_string (styleDescription st))];
      eexists; reflexivity.
  - exists "". now rewrite append_empty_r.
Qed.

Lemma basePrompt_nonempty (st : State) (clause : string) :
  basePrompt st ++ clause <> "".
Proof. unfold basePrompt, promptTemplate. simpl. discriminate. Qed.

End PromptBuilder.

(** C1: for every lighting and perspective selection and every state of the
    style analysis, the prompt derived by the prompt effect is the empty
    string exactly when no product image is present. *)
Theorem derivedPrompt_empty_iff_no_product (st : State) :
  derivedPrompt st = "" <-> productImage st = None.
Proof.
  split.
  - destruct (productImage st) as [p|] eqn:Hp; [|reflexivity].
    destruct (derivedPrompt_base st p Hp) as [clause ->].
    intros H. now apply basePrompt_nonempty in H.
  - apply derivedPrompt_no_product.
Qed.

(** C3: with a product image present, for each of the 6 lighting values and
    each of the 6 camera perspectives, the built prompt contains verbatim the
    table's sentence for the selected lighting and the table's sentence for
    the selected perspective, whatever the state of the style analysis. *)
Theorem prompt_contains_canned_sentences
  (l : LightingStyle) (c : CameraPerspective) (st : State) (p : ImageFile) :
  productImage st = Some p ->
  options st = mkOptions l c ->
  In (l, c) (list_prod all_LightingStyle all_CameraPerspective) /\
  List.length (list_prod all_LightingStyle all_CameraPerspective) = 36 /\
  Contains (derivedPrompt st) (LIGHTING_DESCRIPTIONS l) /\
  Contains (derivedPrompt st) (CAMERA_PERSPECTIVE_DESCRIPTIONS c).
Proof.
  intros Hp Ho.
  split; [destruct l, c; simpl; tauto|].
  split; [reflexivity|].
  destruct (derivedPrompt_base st p Hp) as [clause ->].
  unfold basePrompt. rewrite Ho. cbn [lightingStyle cameraPerspective].
  unfold promptTemplate.
  split; apply Contains_append_l.
  - exists ("Generate a high-resolution, professional product photograph of the subject in the provided image."
            ++ nl ++ nl ++ "Key requirements:" ++ nl ++ "- **Lighting**: ").
    eexists. rewrite !append_assoc. reflexivity.
  - exists ("Generate a high-resolution, professional product photograph of the subject in the provided image."
            ++ nl ++ nl ++ "Key requirements:" ++ nl ++ "- **Lighting**: "
            ++ LIGHTING_DESCRIPTIONS l ++ nl ++ "- **Camera Perspective**: ").
    eexists. rewrite !append_assoc. reflexivity.
Qed.

Lemma prompt_contains_canned_sentences_witness :
  Contains (derivedPrompt
              (mkState (Some sampleProduct) (Some sampleStyle) None
                       (Some "warm film grain") false
                       (mkOptions BlueHour MacroShot) "" false None))
           (LIGHTING_DESCRIPTIONS BlueHour) /\
  Contains (derivedPrompt
              (mkState (Some sampleProduct) (Some sampleStyle) None
                       (Some "warm film grain") false
                       (mkOptions BlueHour MacroShot) "" false None))
           (CAMERA_PERSPECTIVE_DESCRIPTIONS MacroShot).
Proof.
  apply (prompt_contains_canned_sentences BlueHour MacroShot _ sampleProduct);
    reflexivity.
Defined.

(** ** Style clauses *)

Section StyleClauses.

Lemma pendingClause_marker : Contains pendingClause "being analyzed".
Proof. occurs. Qed.

Lemma fallbackClause_marker : Contains fallbackClause "Strictly adhere".
Proof. occurs. Qed.

Lemma describedClause_marker (d : string) :
  Contains (describedClause d) "Strictly adhere".
Proof.
  unfold describedClause.
  do 2 apply Contains_append_r. apply Contains_append_l.
  occurs.
Qed.

Lemma describedClause_embeds (d : string) :
  Contains (describedClause d) ("described as: " ++ dquote ++ d ++ dquote).
Proof.
  unfold describedClause.
  exists (nl ++ nl ++ "- **Style Reference**: Strictly adhere to the aesthetic of the provided style reference image, which is ").
  eexists.
  rewrite !append_assoc. reflexivity.
Qed.

Lemma clause_heading (clause : string) :
  clause = pendingClause \/ clause = fallbackClause
  \/ (exists d, clause = describedClause d) ->
  Contains clause "**Style Reference**".
Proof.
  intros [-> | [-> | [d ->]]].
  - occurs.
  - occurs.
  - unfold describedClause.
    do 2 apply Contains_append_r. apply Contains_append_l.
    occurs.
Qed.

Lemma basePrompt_no_heading (st : State) :
  ~ Contains (basePrompt st) "**Style Reference**".
Proof.
  apply includes_false_not_Contains. unfold basePrompt.
  destruct (options st) as [[] []]; vm_compute; reflexivity.
Qed.

Lemma pending_prompt_no_other (st : State) :
  ~ Contains (basePrompt st ++ pendingClause) "Strictly adhere".
Proof.
  apply includes_false_not_Contains. unfold basePrompt.
  destruct (options st) as [[] []]; vm_compute; reflexivity.
Qed.

Lemma fallback_prompt_no_other (st : State) :
  ~ Contains (basePrompt st ++ fallbackClause) "being analyzed" /\
  ~ Contains (basePrompt st ++ fallbackClause) "described as".
Proof.
  split; apply includes_false_not_Contains; unfold basePrompt;
    destruct (options st) as [[] []]; vm_compute; reflexivity.
Qed.

Lemma clauses_distinct :
  pendingClause <> fallbackClause /\
  forall d, describedClause d <> pendingClause /\
            describedClause d <> fallbackClause.
Proof.
  split; [discriminate|].
  intros d. unfold describedClause, pendingClause, fallbackClause.
  split; simpl; discriminate.
Qed.

End StyleClauses.

(** C8: with a product image set, lighting 'Golden Hour', perspective
    'Close-up' and no style image, the built prompt is the fixed template
    with exactly those two descriptions substituted, and it contains no
    style-reference clause. *)
Theorem golden_hour_close_up_prompt (st : State) (p : ImageFile) :
  productImage st = Some p ->
  styleImage st = None ->
  options st = mkOptions GoldenHour CloseUp ->
  derivedPrompt st = goldenHourCloseUpPrompt /\
  derivedPrompt st =
    promptTemplate (LIGHTING_DESCRIPTIONS GoldenHour)
                   (CAMERA_PERSPECTIVE_DESCRIPTIONS CloseUp) /\
  ~ Contains (derivedPrompt st) "**Style Reference**" /\
  ~ Contains (derivedPrompt st) pendingClause /\
  ~ Contains (derivedPrompt st) fallbackClause /\
  forall d, ~ Contains (derivedPrompt st) (describedClause d).
Proof.
  intros Hp Hs Ho.
  assert (E : derivedPrompt st = goldenHourCloseUpPrompt).
  { unfold derivedPrompt, generateNewPrompt. rewrite Hp, Hs, Ho. reflexivity. }
  assert (N : ~ Contains (derivedPrompt st) "**Style Reference**").
  { rewrite E. occurs_not. }
  split; [exact E|]. split; [rewrite E; reflexivity|]. split; [exact N|].
  assert (K : forall clause, Contains clause "**Style Reference**" ->
                             ~ Contains (derivedPrompt st) clause).
  { intros clause Hc C. apply N. exact (Contains_trans _ _ _ C Hc). }
  split; [|split; [|intros d]]; apply K, clause_heading; eauto.
Qed.

Lemma golden_hour_close_up_prompt_witness :
  derivedPrompt
    (mkState (Some sampleProduct) None None None false
             (mkOptions GoldenHour CloseUp) "" false None)
  = goldenHourCloseUpPrompt.
Proof.
  apply (golden_hour_close_up_prompt
           (mkState (Some sampleProduct) None None None false
                    (mkOptions GoldenHour CloseUp) "" false None)
           sampleProduct); reflexivity.
Defined.

Section StyleSelection.

Variables (st : State) (p s : ImageFile).
Hypothesis Hp : productImage st = Some p.
Hypothesis Hs : styleImage st = Some s.

Lemma derivedPrompt_pending :
  isAnalyzingStyle st = true ->
  derivedPrompt st = basePrompt st ++ pendingClause.
Proof.
  intros Ha. unfold derivedPrompt, generateNewPrompt.
  rewrite Hp, Hs, Ha. reflexivity.
Qed.

Lemma derivedPrompt_described (d : string) :
  isAnalyzingStyle st = false ->
  styleDescription st = Some d ->
  d <> "" ->
  derivedPrompt st = basePrompt st ++ describedClause d.
Proof.
  intros Ha Hd Hne. unfold derivedPrompt, generateNewPrompt.
  rewrite Hp, Hs, Ha, Hd.
  destruct d as [|x d]; [congruence | reflexivity].
Qed.

Lemma derivedPrompt_fallback :
  isAnalyzingStyle st = false ->
  styleDescription st = None \/ styleDescription st = Some "" ->
  derivedPrompt st = basePrompt st ++ fallbackClause.
Proof.
  intros Ha Hd. unfold derivedPrompt, generateNewPrompt.
  rewrite Hp, Hs, Ha. destruct Hd as [-> | ->]; reflexivity.
Qed.

End StyleSelection.

(** C4, as stated, fails: an analysis that has succeeded with the empty
    string as description does not give the clause embedding the
    description; the test [else if (styleDescription)] is false for it and
    the generic clause is appended. *)
Lemma empty_description_uses_fallback :
  let st := mkState (Some sampleProduct) (Some sampleStyle) None (Some "")
                    false (mkOptions NaturalLight FrontView) "" false None in
  isAnalyzingStyle st = false /\
  styleDescription st = Some "" /\
  derivedPrompt st = basePrompt st ++ fallbackClause /\
  derivedPrompt st <> basePrompt st ++ describedClause "" /\
  ~ Contains (derivedPrompt st) (describedClause "") /\
  ~ Contains (derivedPrompt st) ("described as: " ++ dquote ++ "" ++ dquote).
Proof.
  cbv zeta.
  split; [reflexivity|]. split; [reflexivity|]. split; [reflexivity|].
  split; [vm_compute; discriminate|].
  split; occurs_not.
Qed.

(** C4 (amended): with a product image and a style image both present, the
    built prompt is the base template followed by exactly one of three
    pairwise distinct clauses, selected by the state of the style analysis:
    the pending clause while the analysis is in progress; the clause
    embedding the description verbatim once the analysis has resolved to a
    non-empty description; the generic clause when no description is
    available or the description is the empty string.  The base template
    holds no style clause, and in the pending and generic cases no other
    style clause occurs in the prompt. *)
Theorem style_clause_selected (st : State) (p s : ImageFile) :
  productImage st = Some p ->
  styleImage st = Some s ->
  (isAnalyzingStyle st = true ->
     derivedPrompt st = basePrompt st ++ pendingClause /\
     ~ Contains (derivedPrompt st) fallbackClause /\
     forall d, ~ Contains (derivedPrompt st) (describedClause d)) /\
  (forall d, isAnalyzingStyle st = false ->
     styleDescription st = Some d -> d <> "" ->
     derivedPrompt st = basePrompt st ++ describedClause d /\
     Contains (derivedPrompt st) ("described as: " ++ dquote ++ d ++ dquote)) /\
  (isAnalyzingStyle st = false ->
     styleDescription st = None \/ styleDescription st = Some "" ->
     derivedPrompt st = basePrompt st ++ fallbackClause /\
     ~ Contains (derivedPrompt st) pendingClause /\
     forall d, ~ Contains (derivedPrompt st) (describedClause d)) /\
  ~ Contains (basePrompt st) "**Style Reference**" /\
  pendingClause <> fallbackClause /\
  (forall d, describedClause d <> pendingClause /\
             describedClause d <> fallbackClause).
Proof.
  intros Hp Hs.
  split; [|split; [|split; [|split; [apply basePrompt_no_heading
                                    |apply clauses_distinct]]]].
  - intros Ha. rewrite (derivedPrompt_pending st p s Hp Hs Ha).
    split; [reflexivity|].
    split; [|intros d]; intros C; apply (pending_prompt_no_other st);
      apply (Contains_trans _ _ _ C).
    + apply fallbackClause_marker.
    + apply describedClause_marker.
  - intros d Ha Hd Hne.
    rewrite (derivedPrompt_described st p s Hp Hs d Ha Hd Hne).
    split; [reflexivity|].
    apply Contains_append_r, describedClause_embeds.
  - intros Ha Hd. rewrite (derivedPrompt_fallback st p s Hp Hs Ha Hd).
    split; [reflexivity|].
    destruct (fallback_prompt_no_other st) as [N1 N2].
    split; [|intros d]; intros C.
    + apply N1. apply (Contains_trans _ _ _ C), pendingClause_marker.
    + apply N2. apply (Contains_trans _ _ _ C).
      apply (Contains_trans _ _ _ (describedClause_embeds d)).
      exists "", (": " ++ dquote ++ d ++ dquote). reflexivity.
Qed.

(** The scenario of the specification: the analysis resolves to
    "minimalist pastel". *)
Lemma style_clause_selected_witness :
  let st := mkState (Some sampleProduct) (Some sampleStyle) None
                    (Some "minimalist pastel") false
                    (mkOptions StudioLight Angle45) "" false None in
  derivedPrompt st = basePrompt st ++ describedClause "minimalist pastel" /\
  Contains (derivedPrompt st)
           ("described as: " ++ dquote ++ "minimalist pastel" ++ dquote).
Proof.
  cbv zeta.
  refine (proj1 (proj2 (style_clause_selected
                          (mkState (Some sampleProduct) (Some sampleStyle) None
                                   (Some "minimalist pastel") false
                                   (mkOptions StudioLight Angle45) "" false None)
                          sampleProduct sampleStyle eq_refl eq_refl))
                "minimalist pastel" eq_refl eq_refl _).
  discriminate.
Defined.

(** ** The generation handler *)

Section Generation.

Variable srv : Collaborators.

(** The state in which a rejected trigger leaves the application. *)
Lemma handleGenerate_invalid (st : State) :
  productImage st = None \/ prompt st = "" ->
  handleGenerate st = setError (Some validationMessage).
Proof.
  intros [H | H]; unfold handleGenerate.
  - now rewrite H.
  - rewrite H. now destruct (productImage st).
Qed.

(** A valid trigger, synchronous part: the three writes, then the call;
    the rest of the handler waits for the answer. *)
Lemma advance_handleGenerate_valid (w : World) (product : ImageFile) :
  productImage (ui w) = Some product ->
  prompt (ui w) <> "" ->
  exists k : Thrown + ImageFile -> Async unit,
    advance (handleGenerate (ui w)) w =
    (record_call
       (generateImage product (prompt (ui w)) (styleImage (ui w)))
       (apply_setter (SetGeneratedImage None)
          (apply_setter (SetError None)
             (apply_setter (SetIsLoading true) w))),
     Pending (generateImage product (prompt (ui w)) (styleImage (ui w))) k)
    /\
    forall r,
      k r =
      match r with
      | inr result =>
        Update (SetGeneratedImage (Some result))
          (Update (SetIsLoading false) (Ret tt))
      | inl err =>
        ConsoleError err
          (Update (SetError (Some (shownMessage generationFallbackMessage err)))
             (Update (SetIsLoading false) (Ret tt)))
      end.
Proof.
  intros Hp Hq. unfold handleGenerate. rewrite Hp.
  destruct (prompt (ui w)) as [|x q] eqn:E; [congruence|].
  cbn. eexists. split; [reflexivity|].
  intros [[m|]|result]; reflexivity.
Qed.

(** A valid trigger, run to completion. *)
Lemma clickGenerate_valid (w : World) (product : ImageFile) :
  productImage (ui w) = Some product ->
  prompt (ui w) <> "" ->
  let call := generateImage product (prompt (ui w)) (styleImage (ui w)) in
  let w1 := record_call call
              (apply_setter (SetGeneratedImage None)
                 (apply_setter (SetError None)
                    (apply_setter (SetIsLoading true) w))) in
  clickGenerate srv w =
  match srv _ call with
  | inr result =>
    (apply_setter (SetIsLoading false)
       (apply_setter (SetGeneratedImage (Some result)) w1), inr tt)
  | inl err =>
    (apply_setter (SetIsLoading false)
       (apply_setter
          (SetError (Some (shownMessage generationFallbackMessage err)))
          (log_error err w1)), inr tt)
  end.
Proof.
  intros Hp Hq call w1. unfold clickGenerate.
  rewrite run_advance.
  destruct (advance_handleGenerate_valid w product Hp Hq) as [k [-> Hk]].
  fold call. rewrite Hk.
  destruct (srv ImageFile call) as [err|result]; reflexivity.
Qed.

Lemma clickGenerate_invalid (w : World) :
  productImage (ui w) = None \/ prompt (ui w) = "" ->
  clickGenerate srv w =
  (apply_setter (SetError (Some validationMessage)) w, inr tt).
Proof.
  intros H. unfold clickGenerate.
  now rewrite (handleGenerate_invalid _ H).
Qed.

(** A click never touches what the handler closes over. *)
Lemma clickGenerate_keeps_inputs (w : World) :
  productImage (ui (fst (clickGenerate srv w))) = productImage (ui w) /\
  prompt (ui (fst (clickGenerate srv w))) = prompt (ui w) /\
  styleImage (ui (fst (clickGenerate srv w))) = styleImage (ui w).
Proof.
  destruct (productImage (ui w)) as [product|] eqn:Hp.
  - destruct (string_dec (prompt (ui w)) "") as [Hq|Hq].
    + rewrite (clickGenerate_invalid w (or_intror Hq)). simpl. now rewrite Hp.
    + rewrite (clickGenerate_valid w product Hp Hq).
      destruct (srv _ _); simpl; now rewrite Hp.
  - rewrite (clickGenerate_invalid w (or_introl Hp)). simpl. now rewrite Hp.
Qed.

Lemma repeatClicks_S (n : nat) (w : World) :
  repeatClicks srv (S n) w = fst (clickGenerate srv (repeatClicks srv n w)).
Proof. reflexivity. Qed.

End Generation.

(** C2: a trigger with no product image or with an empty prompt sets the
    validation error in the synchronous run of the handler, which ends there
    without suspending at a collaborator call; no collaborator is called. *)
Theorem generate_validation_fails_fast (srv : Collaborators) (w : World) :
  productImage (ui w) = None \/ prompt (ui w) = "" ->
  advance (handleGenerate (ui w)) w =
    (apply_setter (SetError (Some validationMessage)) w, Settled (inr tt)) /\
  error (ui (fst (clickGenerate srv w))) = Some validationMessage /\
  calls (fst (clickGenerate srv w)) = calls w /\
  snd (clickGenerate srv w) = inr tt.
Proof.
  intros H. rewrite (clickGenerate_invalid srv w H).
  rewrite (handleGenerate_invalid _ H). repeat split.
Qed.

Lemma generate_validation_fails_fast_witness :
  let w := mkWorld (mkState None (Some sampleStyle) None None false
                            (mkOptions Cinematic TopView)
                            "a prompt typed by hand" false None)
                   [Invoked (analyzeStyleImage sampleStyle)] [] in
  error (ui (fst (clickGenerate (fun _ _ => inl OtherValue) w)))
    = Some validationMessage /\
  calls (fst (clickGenerate (fun _ _ => inl OtherValue) w))
    = [Invoked (analyzeStyleImage sampleStyle)].
Proof.
  cbv zeta.
  pose proof (generate_validation_fails_fast
                (fun _ _ => inl OtherValue)
                (mkWorld (mkState None (Some sampleStyle) None None false
                                  (mkOptions Cinematic TopView)
                                  "a prompt typed by hand" false None)
                         [Invoked (analyzeStyleImage sampleStyle)] [])
                (or_introl eq_refl)) as [_ [He [Hc _]]].
  exact (conj He Hc).
Defined.

(** C10: a trigger that fails validation changes the error message and
    nothing else: the product and style images, the generated image, the
    style description, the two progress flags, the options and the prompt
    are what they were, and so are the collaborator trace and the console.
    In particular an earlier generation result stays in place. *)
Theorem validation_failure_changes_only_error
  (srv : Collaborators) (w : World) :
  productImage (ui w) = None \/ prompt (ui w) = "" ->
  let w' := fst (clickGenerate srv w) in
  error (ui w') = Some validationMessage /\
  generatedImage (ui w') = generatedImage (ui w) /\
  isLoading (ui w') = isLoading (ui w) /\
  prompt (ui w') = prompt (ui w) /\
  productImage (ui w') = productImage (ui w) /\
  styleImage (ui w') = styleImage (ui w) /\
  styleDescription (ui w') = styleDescription (ui w) /\
  isAnalyzingStyle (ui w') = isAnalyzingStyle (ui w) /\
  options (ui w') = options (ui w) /\
  calls w' = calls w /\
  console w' = console w.
Proof.
  intros H w'. subst w'. rewrite (clickGenerate_invalid srv w H).
  repeat split.
Qed.

Lemma validation_failure_changes_only_error_witness :
  let w := render (mkState (Some sampleProduct) None (Some sampleStyle) None
                           false (mkOptions Dramatic SideView) "" false None) in
  generatedImage (ui (fst (clickGenerate (fun _ _ => inl OtherValue) w)))
    = Some sampleStyle /\
  error (ui (fst (clickGenerate (fun _ _ => inl OtherValue) w)))
    = Some validationMessage.
Proof.
  cbv zeta.
  pose proof (validation_failure_changes_only_error
                (fun _ _ => inl OtherValue)
                (render (mkState (Some sampleProduct) None (Some sampleStyle)
                                 None false (mkOptions Dramatic SideView)
                                 "" false None))
                (or_intror eq_refl)) as [He [Hg _]].
  exact (conj Hg He).
Defined.

(** C5: a trigger that passes validation first clears the previous error and
    the previous generated image (and raises the loading flag), then calls
    the generation collaborator with the product image, the prompt and the
    optional style image.  When the call resolves, its image is stored and
    no error is shown; when it rejects, the error's message (or the fixed
    text, for a thrown value that is not an error) is shown and there is no
    generated image.  Either way the loading flag is lowered and the
    collaborator was called once. *)
Theorem generate_flow (srv : Collaborators) (w : World) (product : ImageFile) :
  productImage (ui w) = Some product ->
  prompt (ui w) <> "" ->
  let call := generateImage product (prompt (ui w)) (styleImage (ui w)) in
  let started := advance (handleGenerate (ui w)) w in
  let w' := fst (clickGenerate srv w) in
  (error (ui (fst started)) = None /\
   generatedImage (ui (fst started)) = None /\
   isLoading (ui (fst started)) = true /\
   calls (fst started) = (calls w ++ [Invoked call])%list /\
   exists k, snd started = Pending call k) /\
  calls w' = (calls w ++ [Invoked call])%list /\
  isLoading (ui w') = false /\
  match srv _ call with
  | inr result =>
    generatedImage (ui w') = Some result /\ error (ui w') = None
  | inl err =>
    generatedImage (ui w') = None /\
    error (ui w') = Some (shownMessage generationFallbackMessage err)
  end.
Proof.
  intros Hp Hq call started w'. subst started w'.
  destruct (advance_handleGenerate_valid w product Hp Hq) as [k [Ha _]].
  rewrite Ha, (clickGenerate_valid srv w product Hp Hq). fold call.
  split; [repeat split; now exists k|].
  destruct (srv ImageFile call) as [err|result]; repeat split.
Qed.

Lemma generate_flow_witness :
  let w := render (mkState (Some sampleProduct) (Some sampleStyle)
                           (Some sampleStyle) (Some "soft linen") false
                           (mkOptions StudioLight FrontView)
                           "a prompt" false (Some "an earlier failure")) in
  generatedImage
    (ui (fst (clickGenerate (fun _ _ => inl (ErrorInstance "quota exceeded")) w)))
    = None /\
  error
    (ui (fst (clickGenerate (fun _ _ => inl (ErrorInstance "quota exceeded")) w)))
    = Some "quota exceeded".
Proof.
  cbv zeta.
  pose proof (generate_flow
                (fun _ _ => inl (ErrorInstance "quota exceeded"))
                (render (mkState (Some sampleProduct) (Some sampleStyle)
                                 (Some sampleStyle) (Some "soft linen") false
                                 (mkOptions StudioLight FrontView)
                                 "a prompt" false (Some "an earlier failure")))
                sampleProduct eq_refl) as H.
  cbv zeta in H.
  destruct H as [_ [_ [_ H]]]; [discriminate|].
  exact H.
Defined.

(** C6: a trigger with a product image present and a non-empty prompt calls
    the generation collaborator exactly once, with the current product
    image, prompt and style image, whatever the collaborator answers; [n]
    triggers in a row make [n] such calls. *)
Theorem generate_calls_collaborator_once
  (srv : Collaborators) (w : World) (product : ImageFile) :
  productImage (ui w) = Some product ->
  prompt (ui w) <> "" ->
  let call :=
    Invoked (generateImage product (prompt (ui w)) (styleImage (ui w))) in
  calls (fst (clickGenerate srv w)) = (calls w ++ [call])%list /\
  forall n, calls (repeatClicks srv n w) = (calls w ++ repeat call n)%list.
Proof.
  intros Hp Hq call. split.
  - rewrite (clickGenerate_valid srv w product Hp Hq).
    now destruct (srv _ _).
  - intros n.
    assert (I : productImage (ui (repeatClicks srv n w)) = Some product /\
                prompt (ui (repeatClicks srv n w)) = prompt (ui w) /\
                styleImage (ui (repeatClicks srv n w)) = styleImage (ui w) /\
                calls (repeatClicks srv n w) = (calls w ++ repeat call n)%list).
    { induction n as [|n [Ip [Iq [Is Ic]]]].
      - simpl. rewrite app_nil_r. auto.
      - rewrite repeatClicks_S.
        set (wn := repeatClicks srv n w) in *.
        destruct (clickGenerate_keeps_inputs srv wn) as [Kp [Kq Ks]].
        rewrite Kp, Kq, Ks. repeat split; try assumption.
        assert (Hq' : prompt (ui wn) <> "") by now rewrite Iq.
        rewrite (clickGenerate_valid srv wn product Ip Hq').
        rewrite Iq, Is. fold call.
        replace (repeat call (S n)) with (repeat call n ++ [call])%list
          by (symmetry; apply (repeat_cons n call)).
        rewrite app_assoc, <- Ic.
        now destruct (srv _ _). }
    apply I.
Qed.

Lemma generate_calls_collaborator_once_witness :
  let w := render (mkState (Some sampleProduct) None None None false
                           (mkOptions NaturalLight CloseUp)
                           "a prompt" false None) in
  calls (repeatClicks (fun _ _ => inl OtherValue) 2 w) =
  [Invoked (generateImage sampleProduct "a prompt" None);
   Invoked (generateImage sampleProduct "a prompt" None)].
Proof.
  cbv zeta.
  pose proof (generate_calls_collaborator_once
                (fun _ _ => inl OtherValue)
                (render (mkState (Some sampleProduct) None None None false
                                 (mkOptions NaturalLight CloseUp)
                                 "a prompt" false None))
                sampleProduct eq_refl) as H.
  cbv zeta in H.
  destruct H as [_ H]; [discriminate|].
  exact (H 2).
Defined.

(** ** The style-analysis effect *)

Section StyleAnalysis.

Variable srv : Collaborators.

Lemma changeStyleImage_removed (w : World) :
  changeStyleImage srv None w =
  (apply_setter (SetStyleDescription None)
     (apply_setter (SetStyleImage None) w), inr tt).
Proof. reflexivity. Qed.

Lemma changeStyleImage_set (w : World) (image : ImageFile) :
  let w1 := record_call (analyzeStyleImage image)
              (apply_setter (SetError None)
                 (apply_setter (SetIsAnalyzingStyle true)
                    (apply_setter (SetStyleImage (Some image)) w))) in
  changeStyleImage srv (Some image) w =
  match srv _ (analyzeStyleImage image) with
  | inr description =>
    (apply_setter (SetIsAnalyzingStyle false)
       (apply_setter (SetStyleDescription (Some description)) w1), inr tt)
  | inl err =>
    (apply_setter (SetIsAnalyzingStyle false)
       (apply_setter (SetStyleDescription None)
          (apply_setter
             (SetError (Some (shownMessage analysisFallbackMessage err)))
             (log_error err w1))), inr tt)
  end.
Proof.
  intros w1. unfold changeStyleImage. cbn.
  destruct (srv string (analyzeStyleImage image)) as [[m|]|d]; reflexivity.
Qed.

End StyleAnalysis.

(** C7: the style-analysis flow runs on every change of the style image.
    When the image is removed, the stored description becomes null and no
    collaborator is called.  When an image is set, the analysis collaborator
    is called once with it; if the call resolves, the description is stored;
    if it rejects, the description is cleared to null and an error message
    is shown: the error's own text, or the fixed text for a thrown value that
    is not an error.  In both cases the analysing flag is lowered in the
    end. *)
Theorem style_analysis_flow (srv : Collaborators) (w : World) :
  (let w' := fst (changeStyleImage srv None w) in
   styleImage (ui w') = None /\
   styleDescription (ui w') = None /\
   calls w' = calls w /\
   error (ui w') = error (ui w)) /\
  (forall image : ImageFile,
     let w' := fst (changeStyleImage srv (Some image) w) in
     styleImage (ui w') = Some image /\
     calls w' = (calls w ++ [Invoked (analyzeStyleImage image)])%list /\
     isAnalyzingStyle (ui w') = false /\
     match srv _ (analyzeStyleImage image) with
     | inr description =>
       styleDescription (ui w') = Some description /\ error (ui w') = None
     | inl err =>
       styleDescription (ui w') = None /\
       error (ui w') = Some (shownMessage analysisFallbackMessage err)
     end).
Proof.
  split.
  - rewrite changeStyleImage_removed. repeat split.
  - intros image w'. subst w'. rewrite changeStyleImage_set.
    destruct (srv string (analyzeStyleImage image)) as [err|d]; repeat split.
Qed.

(** C9: the two flows share the one error cell.  When a style image is set,
    the synchronous part of the analysis effect writes null to it, whatever
    it held; so an error left by a failed generation is gone as soon as the
    analysis starts, while the analysis call is still pending. *)
Theorem style_analysis_erases_generation_error
  (srv : Collaborators) (w : World) (product image : ImageFile) (err : Thrown) :
  productImage (ui w) = Some product ->
  prompt (ui w) <> "" ->
  srv _ (generateImage product (prompt (ui w)) (styleImage (ui w))) = inl err ->
  let w1 := fst (clickGenerate srv w) in
  let started := startStyleImageChange (Some image) w1 in
  error (ui w1) = Some (shownMessage generationFallbackMessage err) /\
  error (ui (fst started)) = None /\
  isAnalyzingStyle (ui (fst started)) = true /\
  (exists k, snd started = Pending (analyzeStyleImage image) k) /\
  forall w0 : World,
    error (ui (fst (startStyleImageChange (Some image) w0))) = None.
Proof.
  intros Hp Hq He w1 started. subst started w1.
  rewrite (clickGenerate_valid srv w product Hp Hq). cbv zeta. rewrite He.
  split; [reflexivity|].
  split; [reflexivity|]. split; [reflexivity|].
  split; [eexists; reflexivity|]. intros w0. reflexivity.
Qed.

Lemma style_analysis_erases_generation_error_witness :
  let w := render (mkState (Some sampleProduct) None None None false
                           (mkOptions BlueHour TopView)
                           "a prompt" false None) in
  let w1 := fst (clickGenerate (fun _ _ => inl (ErrorInstance "503")) w) in
  error (ui w1) = Some "503" /\
  error (ui (fst (startStyleImageChange (Some sampleStyle) w1))) = None.
Proof.
  cbv zeta.
  pose proof (style_analysis_erases_generation_error
                (fun _ _ => inl (ErrorInstance "503"))
                (render (mkState (Some sampleProduct) None None None false
                                 (mkOptions BlueHour TopView)
                                 "a prompt" false None))
                sampleProduct sampleStyle (ErrorInstance "503") eq_refl) as H.
  cbv zeta in H.
  destruct H as [H1 [H2 _]]; [discriminate | reflexivity |].
  exact (conj H1 H2).
Defined.

(** * Further properties *)

(** ** File selection *)

Section Split.

Variable sep : ascii.

Lemma split_not_nil (s : string) : split sep s <> [].
Proof.
  destruct s as [|c s]; simpl; [discriminate|].
  destruct (Ascii.eqb c sep); [discriminate|].
  destruct (split sep s); discriminate.
Qed.

Lemma split_without_sep (s : string) :
  has_char sep s = false -> split sep s = [s].
Proof.
  induction s as [|c s IH]; simpl; [reflexivity|].
  intros H. apply orb_false_iff in H. destruct H as [Hc Hs].
  rewrite Hc, (IH Hs). reflexivity.
Qed.

Lemma split_at_first_sep (h p : string) :
  has_char sep h = false ->
  split sep (h ++ String sep p) = h :: split sep p.
Proof.
  induction h as [|c h IH]; simpl.
  - intros _. now rewrite Ascii.eqb_refl.
  - intros H. apply orb_false_iff in H. destruct H as [Hc Hh].
    rewrite Hc, (IH Hh). reflexivity.
Qed.

Lemma split_pieces_without_sep (s : string) :
  Forall (fun piece => has_char sep piece = false) (split sep s).
Proof.
  induction s as [|c s IH]; simpl.
  - constructor; [reflexivity | constructor].
  - destruct (Ascii.eqb c sep) eqn:E.
    + constructor; [reflexivity | exact IH].
    + destruct (split sep s) as [|piece pieces].
      * constructor; [simpl; now rewrite E | constructor].
      * inversion IH as [|? ? Hp Hps]; subst.
        constructor; [simpl; now rewrite E, Hp | exact Hps].
Qed.

(** Joining the pieces with the separator gives the string back. *)
Lemma concat_split (s : string) :
  String.concat (String sep EmptyString) (split sep s) = s.
Proof.
  induction s as [|c s IH]; simpl; [reflexivity|].
  destruct (Ascii.eqb c sep) eqn:E.
  - apply Ascii.eqb_eq in E. subst c.
    destruct (split sep s) as [|piece pieces] eqn:Es.
    + now destruct (split_not_nil s).
    + simpl in *. now rewrite IH.
  - destruct (split sep s) as [|piece pieces] eqn:Es.
    + now destruct (split_not_nil s).
    + destruct pieces; simpl in *; now rewrite <- IH.
Qed.

Lemma split_second_none (s : string) :
  nth_error (split sep s) 1 = None <-> has_char sep s = false.
Proof.
  split.
  - induction s as [|c s IH]; simpl; [reflexivity|].
    destruct (Ascii.eqb c sep) eqn:E.
    + simpl. destruct (split sep s) eqn:Es; [now destruct (split_not_nil s)|].
      discriminate.
    + destruct (split sep s) as [|piece pieces] eqn:Es;
        [now destruct (split_not_nil s)|].
      simpl. intros H. apply IH. exact H.
  - intros H. now rewrite (split_without_sep s H).
Qed.

Lemma first_sep (s : string) :
  has_char sep s = true ->
  exists h p, s = h ++ String sep p /\ has_char sep h = false.
Proof.
  induction s as [|c s IH]; simpl; [discriminate|].
  destruct (Ascii.eqb c sep) eqn:E.
  - intros _. apply Ascii.eqb_eq in E. subst c. now exists "", s.
  - simpl. intros H. destruct (IH H) as [h [p [-> Hh]]].
    exists (String c h), p. simpl. now rewrite E.
Qed.

(** The second piece is the text between the first separator and the next
    one (or the end). *)
Lemma split_second_some (s b : string) :
  nth_error (split sep s) 1 = Some b ->
  has_char sep b = false /\
  exists h rest,
    s = h ++ String sep (b ++ rest) /\ has_char sep h = false /\
    (rest = "" \/ exists r, rest = String sep r).
Proof.
  intros H.
  destruct (has_char sep s) eqn:Hs.
  - destruct (first_sep s Hs) as [h [p [-> Hh]]].
    rewrite (split_at_first_sep h p Hh) in H. simpl in H.
    destruct (has_char sep p) eqn:Hp.
    + destruct (first_sep p Hp) as [b' [r [-> Hb']]].
      rewrite (split_at_first_sep b' r Hb') in H. simpl in H.
      injection H as <-. split; [exact Hb'|].
      exists h, (String sep r). repeat split; eauto.
    + rewrite (split_without_sep p Hp) in H. simpl in H.
      injection H as <-. split; [exact Hp|].
      exists h, "". rewrite append_empty_r. repeat split; auto.
  - apply split_second_none in Hs. congruence.
Qed.

End Split.

Lemma handleFileChange_first
  (file : File) (others : list File) (readAsDataURL : File -> option string) :
  handleFileChange (Some (file :: others)) readAsDataURL =
  onloadend file (readAsDataURL file).
Proof. reflexivity. Qed.

(** X1: a file whose reader result is a data URL, a header and a payload
    joined by one comma with no comma in either, is handed to the setter with
    exactly the payload as [base64] and the file's own type and name; the
    object is a well-formed [ImageFile]. *)
Theorem upload_keeps_data_url_payload
  (file : File) (others : list File) (readAsDataURL : File -> option string)
  (header payload : string) :
  has_char comma header = false ->
  has_char comma payload = false ->
  readAsDataURL file = Some (header ++ "," ++ payload) ->
  handleFileChange (Some (file :: others)) readAsDataURL =
    Some (mkUploaded (Some payload) (file_type file) (file_name file)) /\
  asImageFile (mkUploaded (Some payload) (file_type file) (file_name file)) =
    Some (mkImageFile payload (file_type file) (file_name file)).
Proof.
  intros Hh Hp Hr. split; [|reflexivity].
  rewrite handleFileChange_first, Hr. unfold onloadend.
  change ("," ++ payload) with (String comma payload).
  rewrite (split_at_first_sep comma header payload Hh).
  rewrite (split_without_sep comma payload Hp). reflexivity.
Qed.

Lemma upload_keeps_data_url_payload_witness :
  handleFileChange
    (Some [mkFile "image/png" "mug.png"])
    (fun _ => Some ("data:image/png;base64" ++ "," ++ "iVBORw0KGgo="))
  = Some (mkUploaded (Some "iVBORw0KGgo=") "image/png" "mug.png").
Proof.
  apply (upload_keeps_data_url_payload
           (mkFile "image/png" "mug.png") []
           (fun _ => Some ("data:image/png;base64" ++ "," ++ "iVBORw0KGgo="))
           "data:image/png;base64" "iVBORw0KGgo="); reflexivity.
Defined.

(** X2: when the reader produced a string for the selected file, the setter
    is called with the file's type and name whatever the string is.  The
    [base64] it gets is undefined exactly when the string holds no comma;
    when it is defined it holds no comma itself and is the text between the
    first comma and the next one (or the end), so anything after a second
    comma is dropped. *)
Theorem upload_of_any_reader_result
  (file : File) (others : list File) (readAsDataURL : File -> option string)
  (result : string) :
  readAsDataURL file = Some result ->
  exists up,
    handleFileChange (Some (file :: others)) readAsDataURL = Some up /\
    uploaded_mimeType up = file_type file /\
    uploaded_name up = file_name file /\
    (uploaded_base64 up = None <-> has_char comma result = false) /\
    (asImageFile up = None <-> has_char comma result = false) /\
    forall b, uploaded_base64 up = Some b ->
      has_char comma b = false /\
      exists header rest,
        result = header ++ "," ++ b ++ rest /\
        has_char comma header = false /\
        (rest = "" \/ exists r, rest = "," ++ r).
Proof.
  intros Hr. rewrite handleFileChange_first, Hr. unfold onloadend.
  eexists. split; [reflexivity|]. cbn [uploaded_mimeType uploaded_name uploaded_base64].
  split; [reflexivity|]. split; [reflexivity|].
  split; [apply split_second_none|].
  split.
  - unfold asImageFile. cbn [uploaded_base64].
    rewrite <- (split_second_none comma result).
    destruct (nth_error (split comma result) 1); split; congruence.
  - intros b Hb. exact (split_second_some comma result b Hb).
Qed.

Lemma upload_of_any_reader_result_witness :
  exists up,
    handleFileChange (Some [mkFile "text/plain" "notes.txt"])
                     (fun _ => Some "a data URL, it is not") = Some up /\
    uploaded_base64 up = Some " it is not".
Proof.
  destruct (upload_of_any_reader_result
              (mkFile "text/plain" "notes.txt") []
              (fun _ => Some "a data URL, it is not")
              "a data URL, it is not" eq_refl) as [up [H _]].
  exists up. split; [exact H|].
  injection H as <-. reflexivity.
Defined.

(** ** The two flows together *)

(** X3: analyses in flight are not cancelled.  If a second style image is
    set while the analysis of the first is pending and the second analysis
    resolves first, then the analysing flag is lowered although the first
    call is still pending, and when that one resolves its description
    replaces the newer one: the state ends with the second image and the
    description of the first, which is what the prompt then embeds. *)
Theorem stale_analysis_overwrites_newer
  (srvA srvB : Collaborators) (w : World) (imageA imageB : ImageFile)
  (dA dB : string) :
  srvA _ (analyzeStyleImage imageA) = inr dA ->
  srvB _ (analyzeStyleImage imageB) = inr dB ->
  let startA := startStyleImageChange (Some imageA) w in
  let startB := startStyleImageChange (Some imageB) (fst startA) in
  let doneB := resume srvB (snd startB) (fst startB) in
  let doneA := resume srvA (snd startA) (fst doneB) in
  (styleDescription (ui (fst doneB)) = Some dB /\
   isAnalyzingStyle (ui (fst doneB)) = false) /\
  snd doneA = Settled (inr tt) /\
  styleImage (ui (fst doneA)) = Some imageB /\
  styleDescription (ui (fst doneA)) = Some dA /\
  isAnalyzingStyle (ui (fst doneA)) = false /\
  calls (fst doneA) =
    (calls w ++ [Invoked (analyzeStyleImage imageA);
                 Invoked (analyzeStyleImage imageB)])%list /\
  (productImage (ui w) <> None -> dA <> "" ->
   derivedPrompt (ui (fst doneA)) = basePrompt (ui w) ++ describedClause dA).
Proof.
  intros HA HB startA startB doneB doneA.
  subst doneA doneB startB startA. cbn. rewrite HB. cbn. rewrite HA. cbn.
  split; [split; reflexivity|]. split; [reflexivity|].
  split; [reflexivity|]. split; [reflexivity|]. split; [reflexivity|].
  split; [now rewrite <- app_assoc|].
  intros Hp Hd. destruct (productImage (ui w)) as [p|] eqn:Ep; [|congruence].
  etransitivity;
    [apply (derivedPrompt_described _ p imageB);
       [reflexivity | reflexivity | reflexivity | reflexivity | exact Hd]
    | reflexivity].
Qed.

Lemma stale_analysis_overwrites_newer_witness :
  let w := render (mkState (Some sampleProduct) None None None false
                           (mkOptions Cinematic SideView) "" false None) in
  let srvA : Collaborators :=
    fun R c => match c in Call R return Thrown + R with
               | analyzeStyleImage _ => inr "rustic wood"
               | generateImage p _ _ => inr p
               end in
  let srvB : Collaborators :=
    fun R c => match c in Call R return Thrown + R with
               | analyzeStyleImage _ => inr "neon glass"
               | generateImage p _ _ => inr p
               end in
  let startA := startStyleImageChange (Some sampleStyle) w in
  let startB := startStyleImageChange (Some sampleProduct) (fst startA) in
  let doneB := resume srvB (snd startB) (fst startB) in
  let doneA := resume srvA (snd startA) (fst doneB) in
  styleImage (ui (fst doneA)) = Some sampleProduct /\
  styleDescription (ui (fst doneA)) = Some "rustic wood".
Proof.
  cbv zeta.
  pose proof (stale_analysis_overwrites_newer
                (fun R c => match c in Call R return Thrown + R with
                            | analyzeStyleImage _ => inr "rustic wood"
                            | generateImage p _ _ => inr p
                            end)
                (fun R c => match c in Call R return Thrown + R with
                            | analyzeStyleImage _ => inr "neon glass"
                            | generateImage p _ _ => inr p
                            end)
                (render (mkState (Some sampleProduct) None None None false
                                 (mkOptions Cinematic SideView) "" false None))
                sampleStyle sampleProduct "rustic wood" "neon glass"
                eq_refl eq_refl) as H.
  cbv zeta in H.
  destruct H as [_ [_ [H1 [H2 _]]]].
  exact (conj H1 H2).
Defined.

Section PromptEffect.

Lemma generateNewPrompt_sets_derived (st : State) :
  generateNewPrompt st = setPrompt (derivedPrompt st).
Proof.
  unfold derivedPrompt, generateNewPrompt.
  destruct (negb (truthy (productImage st))); reflexivity.
Qed.

(** The prompt effect writes the prompt cell and nothing else. *)
Lemma runPromptEffect_writes (w : World) :
  runPromptEffect w = apply_setter (SetPrompt (derivedPrompt (ui w))) w.
Proof.
  unfold runPromptEffect. now rewrite generateNewPrompt_sets_derived.
Qed.

Lemma derivedPrompt_no_style (st : State) (p : ImageFile) :
  productImage st = Some p ->
  styleImage st = None ->
  derivedPrompt st = basePrompt st.
Proof.
  intros Hp Hs. unfold derivedPrompt, generateNewPrompt.
  rewrite Hp, Hs. reflexivity.
Qed.

End PromptEffect.

(** X4: with a product image present, a change of the style image shows in
    the prompt once the prompt effect has run.  Removing the style image
    leaves the bare template.  Setting one gives the pending clause while
    the analysis call is in flight; after it resolved, the clause quoting
    the description, or the generic clause if the description is the empty
    string, and no alert; after it rejected, the generic clause, with the
    error's message in the error cell. *)
Theorem style_change_drives_prompt
  (srv : Collaborators) (w : World) (product : ImageFile) :
  productImage (ui w) = Some product ->
  prompt (ui (runPromptEffect (fst (changeStyleImage srv None w))))
    = basePrompt (ui w) /\
  forall image : ImageFile,
    prompt (ui (runPromptEffect (fst (startStyleImageChange (Some image) w))))
      = basePrompt (ui w) ++ pendingClause /\
    let w' := runPromptEffect (fst (changeStyleImage srv (Some image) w)) in
    match srv _ (analyzeStyleImage image) with
    | inr description =>
      prompt (ui w') =
        basePrompt (ui w)
        ++ (if truthy_string description then describedClause description
            else fallbackClause) /\
      errorAlert (ui w') = None
    | inl err =>
      prompt (ui w') = basePrompt (ui w) ++ fallbackClause /\
      error (ui w') = Some (shownMessage analysisFallbackMessage err)
    end.
Proof.
  intros Hp. split.
  - rewrite runPromptEffect_writes, changeStyleImage_removed.
    cbn [ui apply_setter write prompt fst].
    etransitivity;
      [apply (derivedPrompt_no_style _ product); [exact Hp | reflexivity]
      | reflexivity].
  - intros image. split.
    + rewrite runPromptEffect_writes. cbn [ui apply_setter write prompt].
      etransitivity;
        [apply (derivedPrompt_pending _ product image);
           [exact Hp | reflexivity | reflexivity]
        | reflexivity].
    + intros w'. subst w'.
      rewrite runPromptEffect_writes, changeStyleImage_set.
      destruct (srv string (analyzeStyleImage image)) as [err|d];
        cbn [ui apply_setter write prompt fst]; (split; [|reflexivity]).
      * etransitivity;
          [apply (derivedPrompt_fallback _ product image);
             [exact Hp | reflexivity | reflexivity | left; reflexivity]
          | reflexivity].
      * destruct d as [|x d].
        -- etransitivity;
             [apply (derivedPrompt_fallback _ product image);
                [exact Hp | reflexivity | reflexivity | right; reflexivity]
             | reflexivity].
        -- etransitivity;
             [apply (derivedPrompt_described _ product image);
                [exact Hp | reflexivity | reflexivity | reflexivity
                | discriminate]
             | reflexivity].
Qed.

Lemma style_change_drives_prompt_witness :
  let w := render (mkState (Some sampleProduct) None None None false
                           (mkOptions Dramatic MacroShot) "" false None) in
  prompt (ui (runPromptEffect
                (fst (startStyleImageChange (Some sampleStyle) w))))
  = basePrompt (ui w) ++ pendingClause.
Proof.
  cbv zeta.
  exact (proj1 (proj2 (style_change_drives_prompt
                         (fun _ _ => inl OtherValue)
                         (render (mkState (Some sampleProduct) None None None
                                          false (mkOptions Dramatic MacroShot)
                                          "" false None))
                         sampleProduct eq_refl) sampleStyle)).
Defined.

(** ** The button and the alert *)

(** X5: when the button is enabled and the prompt cell holds what the prompt
    effect derived (the user has not emptied it), a click passes the
    handler's guard: there is a product image, the prompt is not empty, and
    the generation collaborator is called once with them. *)
Theorem enabled_button_passes_guard (srv : Collaborators) (w : World) :
  generateDisabled (ui w) = false ->
  prompt (ui w) = derivedPrompt (ui w) ->
  exists product,
    productImage (ui w) = Some product /\
    prompt (ui w) <> "" /\
    calls (fst (clickGenerate srv w)) =
      (calls w ++ [Invoked (generateImage product (derivedPrompt (ui w))
                                          (styleImage (ui w)))])%list.
Proof.
  intros Hd Hq. unfold generateDisabled in Hd.
  destruct (productImage (ui w)) as [product|] eqn:Hp;
    [|destruct (isLoading (ui w)); discriminate].
  exists product. split; [reflexivity|].
  assert (Hne : prompt (ui w) <> "").
  { rewrite Hq. destruct (derivedPrompt_base _ product Hp) as [clause ->].
    apply basePrompt_nonempty. }
  split; [exact Hne|].
  rewrite (clickGenerate_valid srv w product Hp Hne), Hq.
  now destruct (srv _ _).
Qed.

Lemma enabled_button_passes_guard_witness :
  let w := runPromptEffect
             (render (mkState (Some sampleProduct) None None None false
                              (mkOptions BlueHour FrontView) "" false None)) in
  exists product,
    productImage (ui w) = Some product /\
    prompt (ui w) <> "" /\
    calls (fst (clickGenerate (fun _ _ => inl OtherValue) w)) =
      (calls w ++ [Invoked (generateImage product (derivedPrompt (ui w))
                                          (styleImage (ui w)))])%list.
Proof.
  cbv zeta.
  apply (enabled_button_passes_guard
           (fun _ _ => inl OtherValue)
           (runPromptEffect
              (render (mkState (Some sampleProduct) None None None false
                               (mkOptions BlueHour FrontView) "" false None))));
    reflexivity.
Defined.

(** X6: the button is disabled for as long as a flow started from the
    interface is in flight, and says which: after the synchronous part of a
    valid click it is disabled and reads 'Generating...' (or 'Analyzing
    Style...' if an analysis is running too); after the synchronous part of
    a style image change it is disabled and reads 'Analyzing Style...'.
    Once a click has run to completion, whatever the collaborator answered,
    the button is disabled only if an analysis is running. *)
Theorem button_disabled_while_in_flight
  (srv : Collaborators) (w : World) (product image : ImageFile) :
  productImage (ui w) = Some product ->
  prompt (ui w) <> "" ->
  (let w1 := fst (advance (handleGenerate (ui w)) w) in
   generateDisabled (ui w1) = true /\
   buttonLabel (ui w1) =
     if isAnalyzingStyle (ui w) then "Analyzing Style..." else "Generating...") /\
  (let w1 := fst (startStyleImageChange (Some image) w) in
   generateDisabled (ui w1) = true /\
   buttonLabel (ui w1) = "Analyzing Style...") /\
  generateDisabled (ui (fst (clickGenerate srv w))) = isAnalyzingStyle (ui w).
Proof.
  intros Hp Hq.
  destruct (advance_handleGenerate_valid w product Hp Hq) as [k [Ha _]].
  rewrite Ha, (clickGenerate_valid srv w product Hp Hq).
  split; [split; reflexivity|].
  split.
  - unfold generateDisabled. cbn. split; [apply orb_true_r | reflexivity].
  - destruct (srv _ _); unfold generateDisabled; cbn; now rewrite Hp.
Qed.

Lemma button_disabled_while_in_flight_witness :
  let w := render (mkState (Some sampleProduct) None None None false
                           (mkOptions StudioLight TopView)
                           "a prompt" false None) in
  generateDisabled (ui (fst (advance (handleGenerate (ui w)) w))) = true /\
  buttonLabel (ui (fst (advance (handleGenerate (ui w)) w))) = "Generating...".
Proof.
  cbv zeta.
  refine (proj1 (button_disabled_while_in_flight
                   (fun _ _ => inl OtherValue)
                   (render (mkState (Some sampleProduct) None None None false
                                    (mkOptions StudioLight TopView)
                                    "a prompt" false None))
                   sampleProduct sampleStyle eq_refl _)).
  discriminate.
Defined.

(** X7: after a generation that the collaborator rejected there is no
    generated image and the loading flag is down, and an alert shows the
    message, unless the thrown value is an error whose message is the empty
    string: then no alert is rendered at all. *)
Theorem failed_generation_alert
  (srv : Collaborators) (w : World) (product : ImageFile) (err : Thrown) :
  productImage (ui w) = Some product ->
  prompt (ui w) <> "" ->
  srv _ (generateImage product (prompt (ui w)) (styleImage (ui w))) = inl err ->
  let w' := fst (clickGenerate srv w) in
  generatedImage (ui w') = None /\
  isLoading (ui w') = false /\
  (errorAlert (ui w') = None <-> err = ErrorInstance "") /\
  (err <> ErrorInstance "" ->
   errorAlert (ui w') = Some (shownMessage generationFallbackMessage err)).
Proof.
  intros Hp Hq He w'. subst w'.
  rewrite (clickGenerate_valid srv w product Hp Hq). cbv zeta. rewrite He.
  split; [reflexivity|]. split; [reflexivity|].
  unfold errorAlert. cbn.
  destruct err as [[|x m]|]; cbn; split;
    try (intros; congruence); try (split; intros; congruence).
Qed.

Lemma failed_generation_alert_witness :
  let w := render (mkState (Some sampleProduct) None (Some sampleStyle) None
                           false (mkOptions NaturalLight Angle45)
                           "a prompt" false None) in
  errorAlert (ui (fst (clickGenerate (fun _ _ => inl (ErrorInstance "")) w)))
    = None /\
  generatedImage
    (ui (fst (clickGenerate (fun _ _ => inl (ErrorInstance "")) w))) = None.
Proof.
  cbv zeta.
  pose proof (failed_generation_alert
                (fun _ _ => inl (ErrorInstance ""))
                (render (mkState (Some sampleProduct) None (Some sampleStyle)
                                 None false (mkOptions NaturalLight Angle45)
                                 "a prompt" false None))
                sampleProduct (ErrorInstance "") eq_refl) as H.
  cbv zeta in H.
  destruct H as [Hg [_ [[_ Ha] _]]]; [discriminate | reflexivity |].
  exact (conj (Ha eq_refl) Hg).
Defined.

(** ** Failure, retry and what a flow leaves alone *)

(** X8: a failed generation does not block the next attempt.  After a click
    whose call was rejected, the loading flag is down and the product image
    and prompt are still there; a second click calls the collaborator again
    with the same arguments, and if that call resolves, its image is shown
    and the error of the first attempt is gone. *)
Theorem retry_after_failed_generation
  (srv1 srv2 : Collaborators) (w : World) (product result : ImageFile)
  (err : Thrown) :
  productImage (ui w) = Some product ->
  prompt (ui w) <> "" ->
  let call := generateImage product (prompt (ui w)) (styleImage (ui w)) in
  srv1 _ call = inl err ->
  srv2 _ call = inr result ->
  let w1 := fst (clickGenerate srv1 w) in
  let w2 := fst (clickGenerate srv2 w1) in
  isLoading (ui w1) = false /\
  error (ui w1) = Some (shownMessage generationFallbackMessage err) /\
  generatedImage (ui w2) = Some result /\
  error (ui w2) = None /\
  isLoading (ui w2) = false /\
  calls w2 = (calls w ++ [Invoked call; Invoked call])%list.
Proof.
  intros Hp Hq call H1 H2 w1 w2.
  assert (E1 : clickGenerate srv1 w = clickGenerate srv1 w) by reflexivity.
  rewrite (clickGenerate_valid srv1 w product Hp Hq) in E1 at 2.
  cbv zeta in E1. fold call in E1. rewrite H1 in E1.
  subst w2 w1. rewrite E1. cbn [fst].
  split; [reflexivity|]. split; [reflexivity|].
  match goal with
  | |- context [clickGenerate srv2 ?x] =>
    rewrite (clickGenerate_valid srv2 x product Hp Hq)
  end.
  cbn [ui apply_setter log_error record_call write prompt styleImage].
  fold call. rewrite H2. cbn.
  repeat split. now rewrite <- app_assoc.
Qed.

Lemma retry_after_failed_generation_witness :
  let w := render (mkState (Some sampleProduct) None None None false
                           (mkOptions GoldenHour FrontView)
                           "a prompt" false None) in
  let w1 := fst (clickGenerate (fun _ _ => inl (ErrorInstance "timeout")) w) in
  let srv2 : Collaborators :=
    fun R c => match c in Call R return Thrown + R with
               | analyzeStyleImage _ => inr "plain"
               | generateImage _ _ _ => inr sampleStyle
               end in
  generatedImage (ui (fst (clickGenerate srv2 w1))) = Some sampleStyle /\
  error (ui (fst (clickGenerate srv2 w1))) = None.
Proof.
  cbv zeta.
  pose proof (retry_after_failed_generation
                (fun _ _ => inl (ErrorInstance "timeout"))
                (fun R c => match c in Call R return Thrown + R with
                            | analyzeStyleImage _ => inr "plain"
                            | generateImage _ _ _ => inr sampleStyle
                            end)
                (render (mkState (Some sampleProduct) None None None false
                                 (mkOptions GoldenHour FrontView)
                                 "a prompt" false None))
                sampleProduct sampleStyle (ErrorInstance "timeout")
                eq_refl) as H.
  cbv zeta in H.
  destruct H as [_ [_ [Hg [He _]]]]; [discriminate | reflexivity | reflexivity |].
  exact (conj Hg He).
Defined.


(** X10: neither flow ever ends in an uncaught exception, whatever the
    collaborators do: the promise of [handleGenerate] and that of the style
    effect always resolve.  What a collaborator threw goes to the console
    once, and nothing else does: a click logs the thrown value exactly when
    it passed the guard and the call was rejected; a style image change logs
    it exactly when an image was set and the call was rejected. *)
Theorem flows_never_reject
  (srv : Collaborators) (w : World) (v : option ImageFile) :
  snd (clickGenerate srv w) = inr tt /\
  snd (changeStyleImage srv v w) = inr tt /\
  console (fst (clickGenerate srv w)) =
    (console w ++
     match productImage (ui w) with
     | Some product =>
       if truthy_string (prompt (ui w)) then
         match srv _ (generateImage product (prompt (ui w))
                                    (styleImage (ui w))) with
         | inl err => [err]
         | inr _ => []
         end
       else []
     | None => []
     end)%list /\
  console (fst (changeStyleImage srv v w)) =
    (console w ++
     match v with
     | Some image =>
       match srv _ (analyzeStyleImage image) with
       | inl err => [err]
       | inr _ => []
       end
     | None => []
     end)%list.
Proof.
  assert (G : snd (clickGenerate srv w) = inr tt /\
              console (fst (clickGenerate srv w)) =
              (console w ++
               match productImage (ui w) with
               | Some product =>
                 if truthy_string (prompt (ui w)) then
                   match srv _ (generateImage product (prompt (ui w))
                                              (styleImage (ui w))) with
                   | inl err => [err]
                   | inr _ => []
                   end
                 else []
               | None => []
               end)%list).
  { destruct (productImage (ui w)) as [product|] eqn:Hp.
    - destruct (prompt (ui w)) as [|x q] eqn:Eq.
      + rewrite (clickGenerate_invalid srv w (or_intror Eq)).
        cbn. now rewrite app_nil_r.
      + assert (Hq : prompt (ui w) <> "") by (rewrite Eq; discriminate).
        rewrite (clickGenerate_valid srv w product Hp Hq). rewrite Eq.
        destruct (srv _ _); cbn; [|rewrite app_nil_r]; split; reflexivity.
    - rewrite (clickGenerate_invalid srv w (or_introl Hp)).
      cbn. now rewrite app_nil_r. }
  destruct G as [G1 G2].
  split; [exact G1|].
  destruct v as [image|].
  - rewrite changeStyleImage_set.
    split; [now destruct (srv _ _)|]. split; [exact G2|].
    destruct (srv _ _); cbn; [|rewrite app_nil_r]; reflexivity.
  - rewrite changeStyleImage_removed. cbn. rewrite app_nil_r.
    split; [reflexivity|]. split; [exact G2 | reflexivity].
Qed.

(** ** From the selected file to the collaborator *)

(** X11: selecting a product file whose reader result is a well-formed data
    URL, while nothing is in flight, leads to a generation request for that
    very image: the setter receives the payload with the file's type and
    name, the prompt effect then derives a prompt that starts with the
    template of the current selections, the button is enabled, and a click
    calls the generation collaborator once with that image, that prompt and
    the current style image. *)
Theorem product_upload_to_generation
  (srv : Collaborators) (w : World) (file : File) (others : list File)
  (readAsDataURL : File -> option string) (header payload : string) :
  has_char comma header = false ->
  has_char comma payload = false ->
  readAsDataURL file = Some (header ++ "," ++ payload) ->
  isLoading (ui w) = false ->
  isAnalyzingStyle (ui w) = false ->
  let img := mkImageFile payload (file_type file) (file_name file) in
  let w1 := runPromptEffect (apply_setter (SetProductImage (Some img)) w) in
  (exists up,
     handleFileChange (Some (file :: others)) readAsDataURL = Some up /\
     asImageFile up = Some img) /\
  (exists clause, prompt (ui w1) = basePrompt (ui w) ++ clause) /\
  generateDisabled (ui w1) = false /\
  calls (fst (clickGenerate srv w1)) =
    (calls w ++ [Invoked (generateImage img (prompt (ui w1))
                                        (styleImage (ui w)))])%list.
Proof.
  intros Hh Hp Hr Hl Ha img w1.
  split.
  { exists (mkUploaded (Some payload) (file_type file) (file_name file)).
    split; [|reflexivity].
    rewrite handleFileChange_first, Hr. unfold onloadend.
    change ("," ++ payload) with (String comma payload).
    rewrite (split_at_first_sep comma header payload Hh).
    rewrite (split_without_sep comma payload Hp). reflexivity. }
  assert (Hw1 : w1 = apply_setter
                       (SetPrompt (derivedPrompt
                                     (write (SetProductImage (Some img)) (ui w))))
                       (apply_setter (SetProductImage (Some img)) w)).
  { subst w1. now rewrite runPromptEffect_writes. }
  clearbody w1.
  destruct (derivedPrompt_base (write (SetProductImage (Some img)) (ui w))
                               img eq_refl) as [clause Hc].
  assert (Hq : prompt (ui w1) = basePrompt (ui w) ++ clause).
  { rewrite Hw1. cbn [ui apply_setter write prompt]. exact Hc. }
  split; [now exists clause|].
  split.
  { rewrite Hw1. unfold generateDisabled.
    cbn [ui apply_setter write isLoading productImage isAnalyzingStyle truthy].
    now rewrite Hl, Ha. }
  assert (Hne : prompt (ui w1) <> "").
  { rewrite Hq. apply basePrompt_nonempty. }
  assert (Hpi : productImage (ui w1) = Some img) by now rewrite Hw1.
  rewrite (clickGenerate_valid srv w1 img Hpi Hne).
  assert (Hs : styleImage (ui w1) = styleImage (ui w)) by now rewrite Hw1.
  assert (Hcalls : calls w1 = calls w) by now rewrite Hw1.
  rewrite Hs. destruct (srv _ _); cbn; now rewrite Hcalls.
Qed.

Lemma product_upload_to_generation_witness :
  let w := render (mkState None None None None false
                           (mkOptions Cinematic CloseUp) "" false None) in
  let img := mkImageFile "iVBORw0KGgo=" "image/png" "mug.png" in
  let w1 := runPromptEffect (apply_setter (SetProductImage (Some img)) w) in
  calls (fst (clickGenerate (fun _ _ => inl OtherValue) w1)) =
  [Invoked (generateImage img (prompt (ui w1)) None)].
Proof.
  cbv zeta.
  pose proof (product_upload_to_generation
                (fun _ _ => inl OtherValue)
                (render (mkState None None None None false
                                 (mkOptions Cinematic CloseUp) "" false None))
                (mkFile "image/png" "mug.png") []
                (fun _ => Some ("data:image/png;base64" ++ "," ++ "iVBORw0KGgo="))
                "data:image/png;base64" "iVBORw0KGgo="
                eq_refl eq_refl eq_refl eq_refl eq_refl) as H.
  cbv zeta in H.
  exact (proj2 (proj2 (proj2 H))).
Defined.

(** ** The tables *)

Section Selections.

Lemma diverge_append (a b x y : string) :
  diverge a b = true -> a ++ x <> b ++ y.
Proof.
  revert b; induction a as [|c a IH]; intros [|d b]; simpl; try discriminate.
  destruct (Ascii.eqb c d) eqn:E.
  - intros H Heq. injection Heq as _ Heq. exact (IH b H Heq).
  - intros _ Heq. injection Heq as Hcd _.
    apply Ascii.eqb_neq in E. contradiction.
Qed.

(** Two different selections give templates that differ at a position both
    have. *)
Lemma templates_diverge (l l' : LightingStyle) (c c' : CameraPerspective) :
  (l, c) <> (l', c') ->
  diverge
    (promptTemplate (LIGHTING_DESCRIPTIONS l) (CAMERA_PERSPECTIVE_DESCRIPTIONS c))
    (promptTemplate (LIGHTING_DESCRIPTIONS l') (CAMERA_PERSPECTIVE_DESCRIPTIONS c'))
  = true.
Proof.
  intros H.
  destruct l, l', c, c';
    first [exfalso; apply H; reflexivity | vm_compute; reflexivity].
Qed.

End Selections.

(** X12: with a product image present, the built prompt determines the
    selections: two renders whose lighting or camera perspective differ
    never get the same prompt, whatever their style images, descriptions and
    analysing flags are. *)
Theorem prompt_determines_selection (st1 st2 : State) (p1 p2 : ImageFile) :
  productImage st1 = Some p1 ->
  productImage st2 = Some p2 ->
  options st1 <> options st2 ->
  derivedPrompt st1 <> derivedPrompt st2.
Proof.
  intros H1 H2 Hne E. apply Hne.
  destruct (derivedPrompt_base st1 p1 H1) as [x Hx].
  destruct (derivedPrompt_base st2 p2 H2) as [y Hy].
  rewrite Hx, Hy in E. unfold basePrompt in E.
  destruct (options st1) as [l c], (options st2) as [l' c'].
  cbn [lightingStyle cameraPerspective] in E.
  assert (D : (l, c) = (l', c')).
  { destruct l, l', c, c'; try reflexivity; exfalso;
      refine (diverge_append _ _ x y _ E);
      apply templates_diverge; discriminate. }
  now injection D as -> ->.
Qed.

Lemma prompt_determines_selection_witness :
  derivedPrompt (mkState (Some sampleProduct) (Some sampleStyle) None
                         (Some "matte") false
                         (mkOptions Cinematic CloseUp) "" false None)
  <> derivedPrompt (mkState (Some sampleProduct) (Some sampleStyle) None
                            (Some "matte") false
                            (mkOptions Cinematic MacroShot) "" false None).
Proof.
  apply (prompt_determines_selection
           (mkState (Some sampleProduct) (Some sampleStyle) None
                    (Some "matte") false
                    (mkOptions Cinematic CloseUp) "" false None)
           (mkState (Some sampleProduct) (Some sampleStyle) None
                    (Some "matte") false
                    (mkOptions Cinematic MacroShot) "" false None)
           sampleProduct sampleProduct eq_refl eq_refl).
  discriminate.
Defined.
